(** * bot.py: conversation store, prompt assembly and relay handler

    A shallow embedding of [src/bot.py].  The two module-level dictionaries
    [chat_histories] and [system_prompts] form the store; every function of
    the module that touches them becomes a computation in a small monad that
    threads the store, collects the outbound effects in call order and can
    raise a Python exception. *)

From Stdlib Require Import String Ascii.
From stdpp Require Import gmap list pretty.

Local Open Scope Z_scope.

(** ** Python values *)

(** A Python [str] is a sequence of Unicode code points: [len] and slicing
    count code points, not bytes. *)
Definition char : Type := N.
Definition str : Type := list char.

(** An ASCII-only source literal, one code point per character. *)
Definition lit (s : string) : str := map N_of_ascii (list_ascii_of_string s).

(** [str.isspace] on one code point (the table of [Py_UNICODE_ISSPACE]). *)
Definition is_space (c : char) : bool :=
  ((9 <=? c) && (c <=? 13) || (28 <=? c) && (c <=? 32)
   || (c =? 133) || (c =? 160) || (c =? 5760)
   || (8192 <=? c) && (c <=? 8202)
   || (c =? 8232) || (c =? 8233) || (c =? 8239) || (c =? 8287)
   || (c =? 12288))%N.

Fixpoint lstrip (s : str) : str :=
  match s with
  | c :: s' => if is_space c then lstrip s' else s
  | [] => []
  end.

Definition rstrip (s : str) : str := rev (lstrip (rev s)).

(** [s.strip()] *)
Definition strip (s : str) : str := rstrip (lstrip s).

(** [sep.join(parts)] *)
Fixpoint join (sep : str) (parts : list str) : str :=
  match parts with
  | [] => []
  | [p] => p
  | p :: rest => p ++ sep ++ join sep rest
  end.

(** [len(l)] *)
Definition len {A} (l : list A) : Z := Z.of_nat (length l).

(** An index given to a slice of a sequence of length [n], brought into
    [0..n]: a negative index counts from the end, and anything out of
    range is clipped. *)
Definition clip (n i : Z) : Z :=
  if i <? 0 then Z.max 0 (i + n) else Z.min i n.

(** [l[lo:hi]], an omitted bound being [None]. *)
Definition slice {A} (l : list A) (lo hi : option Z) : list A :=
  let start := match lo with Some i => clip (len l) i | None => 0 end in
  let stop := match hi with Some j => clip (len l) j | None => len l end in
  take (Z.to_nat (stop - start)) (drop (Z.to_nat start) l).

(** [range(start, stop, step)] for a positive step: its length is computed
    first, element [k] is [start + k * step]. *)
Definition range (start stop step : Z) : list Z :=
  let n := if start <? stop then (stop - start - 1) / step + 1 else 0 in
  map (λ k, start + Z.of_nat k * step) (seq 0 (Z.to_nat n)).

(** ** Messages, exceptions, effects *)

(** A chat-completions message, [{"role": ..., "content": ...}]. *)
Record message := Message { role : str; content : str }.

(** A raised exception: its class and [str(e)].  Every class raised in
    this module derives from [Exception]. *)
Record exn := Exception { exn_class : string; exn_str : str }.

Definition KeyError (k : Z) : exn := Exception "KeyError" (lit (pretty k)).
Definition IndexError : exn := Exception "IndexError" (lit "list index out of range").
Definition AttributeError : exn :=
  Exception "AttributeError" (lit "'NoneType' object has no attribute 'strip'").

(** The request of [chat.completions.create].  The fourth keyword,
    [temperature=0.6], is a float constant handed through unchanged. *)
Record request := Request { model : str; messages : list message; max_tokens : Z }.

(** [resp.choices[i].message.content], which the API may leave [None]. *)
Record choice := Choice { message_content : option str }.
Record response := Response { choices : list choice }.

(** What a handler does to the outside, in call order. *)
Inductive event :=
  | SendAction (action : str)
  | ApiCall (req : request)
  | LogException (msg : str)
  | ReplyText (text : str).

(** ** The store and the monad *)

Record store := Store {
  chat_histories : gmap Z (list message);
  system_prompts : gmap Z str
}.

(** Both dictionaries start empty (lines 21-22). *)
Definition initial_store : store := Store ∅ ∅.

Inductive outcome (A : Type) :=
  | Return (a : A)
  | Raise (e : exn).
Arguments Return {A} a.
Arguments Raise {A} e.

(** A computation: from the store to its outcome, the store it leaves and
    the effects it performed.  A raise keeps the store as it was at that
    point. *)
Definition M (A : Type) : Type := store → outcome A * store * list event.

Definition ret {A} (a : A) : M A := λ s, (Return a, s, []).

Definition bind {A B} (c : M A) (k : A → M B) : M B := λ s,
  match c s with
  | (Return a, s1, t1) => let '(o, s2, t2) := k a s1 in (o, s2, t1 ++ t2)
  | (Raise e, s1, t1) => (Raise e, s1, t1)
  end.

Definition raise {A} (e : exn) : M A := λ s, (Raise e, s, []).

(** [try: body / except Exception as e: handler e] *)
Definition try_except {A} (body : M A) (handler : exn → M A) : M A := λ s,
  match body s with
  | (Return a, s1, t1) => (Return a, s1, t1)
  | (Raise e, s1, t1) => let '(o, s2, t2) := handler e s1 in (o, s2, t1 ++ t2)
  end.

Definition emit (e : event) : M unit := λ s, (Return (), s, [e]).

Definition lift {A} (o : outcome A) : M A := λ s, (o, s, []).

Declare Scope py_scope.
Delimit Scope py_scope with py.
Notation "x <- c ;; k" := (bind c (λ x, k))
  (at level 100, c at next level, right associativity) : py_scope.
Notation "c ;; k" := (bind c (λ _, k))
  (at level 100, right associativity) : py_scope.
Local Open Scope py_scope.

(** [for x in xs: body x] *)
Fixpoint for_each {A} (xs : list A) (body : A → M unit) : M unit :=
  match xs with
  | [] => ret ()
  | x :: xs' => body x ;; for_each xs' body
  end.

(** *** Dictionary primitives on [chat_histories] *)

(** [chat_histories.setdefault(k, v)] *)
Definition histories_setdefault (k : Z) (v : list message) : M (list message) := λ s,
  match chat_histories s !! k with
  | Some h => (Return h, s, [])
  | None => (Return v, Store (<[k:=v]> (chat_histories s)) (system_prompts s), [])
  end.

(** [chat_histories[k]] *)
Definition histories_getitem (k : Z) : M (list message) := λ s,
  match chat_histories s !! k with
  | Some h => (Return h, s, [])
  | None => (Raise (KeyError k), s, [])
  end.

(** [chat_histories[k] = v] *)
Definition histories_setitem (k : Z) (v : list message) : M unit := λ s,
  (Return (), Store (<[k:=v]> (chat_histories s)) (system_prompts s), []).

(** [chat_histories.get(k, d)] *)
Definition histories_get (k : Z) (d : list message) : M (list message) := λ s,
  (Return (default d (chat_histories s !! k)), s, []).

(** [chat_histories.pop(k, None)], the popped value dropped *)
Definition histories_pop (k : Z) : M unit := λ s,
  (Return (), Store (delete k (chat_histories s)) (system_prompts s), []).

(** *** Dictionary primitives on [system_prompts] *)

(** [k in system_prompts] *)
Definition prompts_contains (k : Z) : M bool := λ s,
  (Return (bool_decide (is_Some (system_prompts s !! k))), s, []).

(** [system_prompts[k]] *)
Definition prompts_getitem (k : Z) : M str := λ s,
  match system_prompts s !! k with
  | Some p => (Return p, s, [])
  | None => (Raise (KeyError k), s, [])
  end.

(** [system_prompts[k] = v] *)
Definition prompts_setitem (k : Z) (v : str) : M unit := λ s,
  (Return (), Store (chat_histories s) (<[k:=v]> (system_prompts s)), []).

(** [del system_prompts[k]] *)
Definition prompts_delitem (k : Z) : M unit := λ s,
  match system_prompts s !! k with
  | Some _ => (Return (), Store (chat_histories s) (delete k (system_prompts s)), [])
  | None => (Raise (KeyError k), s, [])
  end.

(** ** Helpers (lines 29-50) *)

Definition user_role : str := lit "user".
Definition assistant_role : str := lit "assistant".
Definition system_role : str := lit "system".

(** [chat_histories[chat_id].append(m)]: the list held by the dictionary
    is extended in place.  No other name refers to that list, so the
    update is written back under the same key. *)
Definition histories_append (chat_id : Z) (m : message) : M unit :=
  h <- histories_getitem chat_id ;;
  histories_setitem chat_id (h ++ [m]).

(** [chat_histories[chat_id] = chat_histories[chat_id][-12:]] *)
Definition keep_last_12 (chat_id : Z) : M unit :=
  h <- histories_getitem chat_id ;;
  histories_setitem chat_id (slice h (Some (-12)) None).

Definition add_user_message (chat_id : Z) (text : str) : M unit :=
  histories_setdefault chat_id [] ;;
  histories_append chat_id (Message user_role text) ;;
  keep_last_12 chat_id.

Definition add_assistant_message (chat_id : Z) (text : str) : M unit :=
  histories_setdefault chat_id [] ;;
  histories_append chat_id (Message assistant_role text) ;;
  keep_last_12 chat_id.

(** [msgs] is a fresh local list; [extend] copies the entries of the
    stored history into it. *)
Definition build_messages (chat_id : Z) (user_text : str) : M (list message) :=
  let msgs := [] in
  has_prompt <- prompts_contains chat_id ;;
  msgs <- (if has_prompt : bool
           then p <- prompts_getitem chat_id ;;
                ret (msgs ++ [Message system_role p])
           else ret msgs) ;;
  history <- histories_get chat_id [] ;;
  let msgs := msgs ++ history in
  let msgs := msgs ++ [Message user_role user_text] in
  ret msgs.

(** ** Command handlers (lines 69-88)

    [update.effective_chat.id] is the argument [chat_id], [context.args]
    (the list of tokens after the command) the argument [args];
    [update.message.reply_text] is [ReplyText]. *)

Definition reply_text (text : str) : M unit := emit (ReplyText text).

Definition setprompt (chat_id : Z) (args : list str) : M unit :=
  match args with
  | [] => reply_text (lit "Use: /setprompt <your instruction>")
  | _ =>
      let prompt := join (lit " ") args in
      prompts_setitem chat_id prompt ;;
      reply_text (lit "System prompt set for this chat.")
  end.

Definition clearprompt (chat_id : Z) : M unit :=
  has_prompt <- prompts_contains chat_id ;;
  (if has_prompt : bool then prompts_delitem chat_id else ret ()) ;;
  reply_text (lit "System prompt removed (if any).").

Definition clear_history (chat_id : Z) : M unit :=
  histories_pop chat_id ;;
  reply_text (lit "Conversation history cleared.").

(** ** Message handler (lines 91-120) *)

(** The literal of line 114, code point by code point: seven Bengali
    letters and signs, [", "], eight more, [" error "], three more,
    [": "]. *)
Definition failure_prefix : str :=
  [2470; 2497; 2435; 2454; 2495; 2468; 44; 32;
   2488; 2494; 2480; 2509; 2477; 2494; 2480; 32;
   101; 114; 114; 111; 114; 32;
   2489; 2482; 2507; 58; 32]%N.

(** [[reply[i:i+3900] for i in range(0, len(reply), 3900)]] *)
Definition chunks (reply : str) : list str :=
  map (λ i, slice reply (Some i) (Some (i + 3900)))
      (range 0 (len reply) 3900).

(** [l[0]] *)
Definition first_item {A} (l : list A) : M A :=
  match l with
  | x :: _ => ret x
  | [] => raise IndexError
  end.

(** [c.message.content.strip()] *)
Definition content_strip (c : choice) : M str :=
  match message_content c with
  | Some text => ret (strip text)
  | None => raise AttributeError
  end.

Section Handler.

(** The remote call [openai_client.chat.completions.create]: it answers
    or raises. *)
Variable create : request → outcome response.

Definition completions_create (req : request) : M response :=
  emit (ApiCall req) ;; lift (create req).

Definition handle_message (chat_id : Z) (user_text : str) : M unit :=
  emit (SendAction (lit "typing")) ;;
  add_user_message chat_id user_text ;;
  messages <- build_messages chat_id user_text ;;
  reply <- try_except
    (resp <- completions_create
               (Request (lit "gpt-3.5-turbo") messages 800) ;;
     c <- first_item (choices resp) ;;
     content_strip c)
    (λ e,
       emit (LogException (lit "OpenAI error")) ;;
       ret (failure_prefix ++ exn_str e)) ;;
  add_assistant_message chat_id reply ;;
  for_each (chunks reply) reply_text.

End Handler.

(** ** Vocabulary of the statements *)

(** The value of [chat_histories.get(chat_id, [])] in store [s]. *)
Definition get_history (s : store) (chat_id : Z) : list message :=
  default [] (chat_histories s !! chat_id).

(** The store an append leaves behind, in closed form. *)
Definition appended (s : store) (chat_id : Z) (m : message) : store :=
  Store (<[chat_id := slice (get_history s chat_id ++ [m]) (Some (-12)) None]>
           (chat_histories s))
        (system_prompts s).

(** A sequence of appends, as the spec's properties quantify over them. *)
Inductive call :=
  | AppendUser (chat_id : Z) (text : str)
  | AppendAssistant (chat_id : Z) (text : str).

Definition do_call (c : call) : M unit :=
  match c with
  | AppendUser chat_id text => add_user_message chat_id text
  | AppendAssistant chat_id text => add_assistant_message chat_id text
  end.

Definition run (cs : list call) : M unit := for_each cs do_call.

Definition message_of (c : call) : message :=
  match c with
  | AppendUser _ text => Message user_role text
  | AppendAssistant _ text => Message assistant_role text
  end.

Definition chat_of (c : call) : Z :=
  match c with AppendUser k _ | AppendAssistant k _ => k end.

(** No chat holds more than 12 turns. *)
Definition bounded (s : store) : Prop :=
  ∀ chat_id, (length (get_history s chat_id) ≤ 12)%nat.

(** The texts ["m1"] .. ["m13"]. *)
Definition m_texts (first count : nat) : list str :=
  map (λ i, lit "m" ++ lit (pretty i)) (seq first count).

Definition m_turns (first count : nat) : list message :=
  map (Message user_role) (m_texts first count).

(** The system entry of a chat: one message if a prompt is stored, none
    otherwise. *)
Definition system_entry (s : store) (chat_id : Z) : list message :=
  match system_prompts s !! chat_id with
  | Some p => [Message system_role p]
  | None => []
  end.

Definition usage_reply : str := lit "Use: /setprompt <your instruction>".

(** [c] returns normally and, of the whole store, can only have changed
    the history of [chat_id]. *)
Definition touches_history_of (chat_id : Z) (c : M unit) : Prop :=
  ∀ s, ∃ s' t,
    c s = (Return (), s', t)
    ∧ system_prompts s' = system_prompts s
    ∧ ∀ k, k ≠ chat_id → chat_histories s' !! k = chat_histories s !! k.

(** [c] returns normally and, of the whole store, can only have changed
    the prompt of [chat_id]. *)
Definition touches_prompt_of (chat_id : Z) (c : M unit) : Prop :=
  ∀ s, ∃ s' t,
    c s = (Return (), s', t)
    ∧ chat_histories s' = chat_histories s
    ∧ ∀ k, k ≠ chat_id → system_prompts s' !! k = system_prompts s !! k.

(** The request [handle_message] sends for [user_text] from store [s]. *)
Definition request_sent (s : store) (chat_id : Z) (user_text : str) : request :=
  let s1 := appended s chat_id (Message user_role user_text) in
  Request (lit "gpt-3.5-turbo")
          (system_entry s1 chat_id ++ get_history s1 chat_id
           ++ [Message user_role user_text])
          800.

(** What the [try] block evaluates to for a given outcome of the call. *)
Definition extracted (o : outcome response) : outcome str :=
  match o with
  | Return resp =>
      match choices resp with
      | c :: _ =>
          match message_content c with
          | Some text => Return (strip text)
          | None => Raise AttributeError
          end
      | [] => Raise IndexError
      end
  | Raise e => Raise e
  end.

(** The reply after the [except] clause, and what it logged. *)
Definition recovered (o : outcome str) : str :=
  match o with
  | Return reply => reply
  | Raise e => failure_prefix ++ exn_str e
  end.

Definition logged (o : outcome str) : list event :=
  match o with
  | Return _ => []
  | Raise _ => [LogException (lit "OpenAI error")]
  end.

(** The texts handed to [reply_text], in order. *)
Definition replies (t : list event) : list str :=
  omap (λ ev, match ev with ReplyText text => Some text | _ => None end) t.

Definition is_api_call (ev : event) : bool :=
  match ev with ApiCall _ => true | _ => false end.

(** ** Concrete inputs *)

Definition two_chats : store :=
  Store {[ 2 := [Message user_role (lit "earlier")] ]}
        {[ 1 := lit "terse"; 2 := lit "kind" ]}.

Definition twelve_turns : list message :=
  map (λ i, Message user_role (lit "t" ++ lit (pretty i))) (seq 0 12).

Definition reply_of_8000 : str := replicate (Z.to_nat 8000) 97%N.

Definition connection_error : exn :=
  Exception "APIConnectionError" (lit "Connection error.").

Definition blank_response : response := Response [Choice (Some (lit "  "))].

(** ** The rest of the module *)

(** *** Start-up (lines 10-15)

    [os.getenv] gives [None] for a variable that is not set; [not v] holds
    of [None] and of the empty string. *)

Definition falsy (v : option str) : bool :=
  match v with
  | Some (_ :: _) => false
  | Some [] | None => true
  end.

Definition RuntimeError (msg : str) : exn := Exception "RuntimeError" msg.

Definition load_config (telegram_token openai_api_key : option str) : outcome unit :=
  if falsy telegram_token || falsy openai_api_key
  then Raise (RuntimeError (lit "Set TELEGRAM_BOT_TOKEN and OPENAI_API_KEY in .env"))
  else Return ().

(** *** [/start] and [/help] (lines 53-67) *)

(** The escape [\n]. *)
Definition nl : str := [10%N].

(** The literal of line 55; its one non-ASCII character is U+09CB. *)
Definition start_text : str :=
  lit "Salam! Ami ChatGPT-bot. /help dekh" ++ [2507%N]
  ++ lit " commands gula jannar jonno.".

Definition start : M unit := reply_text start_text.

Definition help_text : str :=
  lit "/start - greeting" ++ nl
  ++ lit "/help - this help" ++ nl
  ++ lit "/setprompt <text> - set system prompt for this chat (e.g. 'You are a helpful assistant...')" ++ nl
  ++ lit "/clearprompt - remove system prompt" ++ nl
  ++ lit "/clear - clear conversation history" ++ nl ++ nl
  ++ lit "Just send a message to chat with GPT.".

Definition help_cmd : M unit :=
  let txt := help_text in
  reply_text txt.

(** *** The application (lines 122-133)

    [main] registers six handlers.  The application it builds, with the
    builder's defaults, takes one update at a time and awaits the handler
    it matched before it takes the next.  An update is written here as the
    handler it was matched to, with what that handler reads from [update]
    and [context]; a text message also carries how the API behaves at the
    one call its handling makes. *)
Inductive update :=
  | StartCommand
  | HelpCommand
  | SetpromptCommand (chat_id : Z) (args : list str)
  | ClearpromptCommand (chat_id : Z)
  | ClearCommand (chat_id : Z)
  | TextMessage (chat_id : Z) (text : str) (create : request → outcome response).

Definition dispatch (u : update) : M unit :=
  match u with
  | StartCommand => start
  | HelpCommand => help_cmd
  | SetpromptCommand chat_id args => setprompt chat_id args
  | ClearpromptCommand chat_id => clearprompt chat_id
  | ClearCommand chat_id => clear_history chat_id
  | TextMessage chat_id text create => handle_message create chat_id text
  end.

Definition run_polling (us : list update) : M unit := for_each us dispatch.

(** *** Vocabulary of the further statements *)

(** The turns of a list of exchanges, each a user text and its reply. *)
Definition turns_of (ps : list (str * str)) : list message :=
  flat_map (λ p, [Message user_role p.1; Message assistant_role p.2]) ps.




(** The updates whose handler can write the prompt of [k]. *)
Definition writes_prompt (k : Z) (u : update) : bool :=
  match u with
  | SetpromptCommand chat_id _ | ClearpromptCommand chat_id => bool_decide (chat_id = k)
  | _ => false
  end.

(** The updates whose handler can write the history of [k]. *)
Definition writes_history (k : Z) (u : update) : bool :=
  match u with
  | ClearCommand chat_id | TextMessage chat_id _ _ => bool_decide (chat_id = k)
  | _ => false
  end.

(** The store a computation leaves. *)
Definition store_after {A} (c : M A) (s : store) : store := (c s).1.2.

(** *** Further concrete inputs *)

Definition six_exchanges : list (str * str) :=
  map (λ i, (lit "q" ++ lit (pretty i), lit "a" ++ lit (pretty i))) (seq 1 6).

Definition full_chat : store := Store {[ 42 := turns_of six_exchanges ]} ∅.

(** ** The primitives on small inputs *)

Example slice_negative_start : slice [1; 2; 3; 4; 5] (Some (-2)) None = [4; 5].
Proof. reflexivity. Qed.

Example slice_past_the_start : slice [1; 2; 3] (Some (-12)) None = [1; 2; 3].
Proof. reflexivity. Qed.

Example slice_past_the_end : slice [1; 2; 3; 4; 5] (Some 3) (Some 7) = [4; 5].
Proof. reflexivity. Qed.

Example range_steps : range 0 10 3 = [0; 3; 6; 9] ∧ range 0 9 3 = [0; 3; 6].
Proof. split; reflexivity. Qed.

Example range_empty : range 0 0 3900 = [].
Proof. reflexivity. Qed.

Example strip_both_ends : strip (lit "  hi there ") = lit "hi there".
Proof. reflexivity. Qed.

Example join_tokens :
  join (lit " ") [lit "You"; lit "are"; lit "terse"] = lit "You are terse".
Proof. reflexivity. Qed.

Example chunks_short : chunks (lit "hi there") = [lit "hi there"].
Proof. reflexivity. Qed.

(** Chat 42 sends "hello" and the API answers "hi there". *)
Example relay_hello :
  handle_message (λ _, Return (Response [Choice (Some (lit "hi there"))]))
    42 (lit "hello") initial_store
  = (Return (),
     Store {[ 42 := [Message user_role (lit "hello");
                     Message assistant_role (lit "hi there")] ]} ∅,
     [SendAction (lit "typing");
      ApiCall (Request (lit "gpt-3.5-turbo")
                 [Message user_role (lit "hello");
                  Message user_role (lit "hello")] 800);
      ReplyText (lit "hi there")]).
Proof. by vm_compute. Qed.

(** A response without choices is an [IndexError] inside the [try]. *)
Example relay_no_choice :
  replies (handle_message (λ _, Return (Response [])) 42 (lit "hello")
             initial_store).2
  = [failure_prefix ++ lit "list index out of range"].
Proof. by vm_compute. Qed.

(** [del] without the guard of line 81 would raise. *)
Example delitem_absent :
  prompts_delitem 42 initial_store = (Raise (KeyError 42), initial_store, []).
Proof. reflexivity. Qed.

(** ** Slices and ranges *)

Lemma slice_last_12 {A} (l : list A) :
  slice l (Some (-12)) None = drop (length l - 12)%nat l.
Proof.
  unfold slice, clip, len. cbn [Z.ltb Z.compare].
  rewrite take_ge.
  - f_equal. lia.
  - rewrite length_drop. lia.
Qed.

Lemma length_slice_last_12 {A} (l : list A) :
  (length (slice l (Some (-12)%Z) None) ≤ 12)%nat.
Proof. rewrite slice_last_12, length_drop. lia. Qed.

Lemma slice_last_12_app {A} (l r : list A) :
  slice (slice l (Some (-12)) None ++ r) (Some (-12)) None
  = slice (l ++ r) (Some (-12)) None.
Proof.
  rewrite !slice_last_12, !drop_app, !length_app, !length_drop, drop_drop.
  f_equal; f_equal; lia.
Qed.

Lemma slice_window {A} (l : list A) (i c : Z) :
  0 ≤ i → 0 ≤ c →
  slice l (Some i) (Some (i + c)) = take (Z.to_nat c) (drop (Z.to_nat i) l).
Proof.
  intros Hi Hc. unfold slice, clip, len.
  destruct (Z.ltb_spec i 0); [lia|].
  destruct (Z.ltb_spec (i + c) 0); [lia|].
  destruct (Z.le_gt_cases i (Z.of_nat (length l))) as [Hin|Hout].
  - rewrite (Z.min_l i) by done.
    destruct (Z.le_gt_cases (i + c) (Z.of_nat (length l))).
    + rewrite Z.min_l by done. f_equal. lia.
    + rewrite Z.min_r by lia.
      rewrite !take_ge; [done | rewrite length_drop; lia | rewrite length_drop; lia].
  - rewrite !Z.min_r by lia.
    rewrite !drop_ge by lia. by rewrite !take_nil.
Qed.

Lemma range_from_0 (stop step : Z) :
  0 < step →
  range 0 stop step
  = map (λ k, Z.of_nat k * step) (seq 0 (Z.to_nat ((stop + step - 1) / step))).
Proof.
  intros Hstep. unfold range.
  destruct (Z.ltb_spec 0 stop) as [Hpos|Hneg].
  - replace ((stop - 0 - 1) / step + 1) with ((stop + step - 1) / step); [done|].
    replace (stop + step - 1) with (stop - 0 - 1 + 1 * step) by lia.
    rewrite Z.div_add by lia. done.
  - replace (Z.to_nat ((stop + step - 1) / step)) with 0%nat; [done|].
    assert ((stop + step - 1) / step ≤ 0); [|lia].
    destruct (Z.eq_dec stop 0) as [->|].
    + rewrite Z.div_small by lia. done.
    + assert ((stop + step - 1) / step < 1); [|lia].
      apply Z.div_lt_upper_bound; lia.
Qed.

(** ** Closed forms of the helpers *)

Lemma append_then_keep (chat_id : Z) (m : message) (s : store) :
  (histories_setdefault chat_id [] ;;
   histories_append chat_id m ;;
   keep_last_12 chat_id) s
  = (Return (), appended s chat_id m, []).
Proof.
  unfold appended, get_history, histories_append, keep_last_12, bind,
    histories_setdefault, histories_getitem, histories_setitem.
  destruct (chat_histories s !! chat_id) as [h|] eqn:Hh; cbn.
  - rewrite Hh. cbn. rewrite lookup_insert_eq. cbn.
    by rewrite insert_insert_eq.
  - rewrite lookup_insert_eq. cbn. rewrite lookup_insert_eq. cbn.
    by rewrite !insert_insert_eq.
Qed.

Lemma add_user_message_eq (chat_id : Z) (text : str) (s : store) :
  add_user_message chat_id text s
  = (Return (), appended s chat_id (Message user_role text), []).
Proof. apply append_then_keep. Qed.

Lemma add_assistant_message_eq (chat_id : Z) (text : str) (s : store) :
  add_assistant_message chat_id text s
  = (Return (), appended s chat_id (Message assistant_role text), []).
Proof. apply append_then_keep. Qed.

Lemma do_call_eq (c : call) (s : store) :
  do_call c s = (Return (), appended s (chat_of c) (message_of c), []).
Proof.
  destruct c; [apply add_user_message_eq | apply add_assistant_message_eq].
Qed.

Lemma run_eq (cs : list call) (s : store) :
  run cs s
  = (Return (), foldl (λ s c, appended s (chat_of c) (message_of c)) s cs, []).
Proof.
  revert s. induction cs as [|c cs IH]; intros s; [done|].
  unfold run in *. cbn [for_each foldl]. unfold bind.
  by rewrite do_call_eq, IH.
Qed.

Lemma get_history_appended (s : store) (chat_id : Z) (m : message) :
  get_history (appended s chat_id m) chat_id
  = slice (get_history s chat_id ++ [m]) (Some (-12)) None.
Proof. unfold appended, get_history at 1. cbn. by rewrite lookup_insert_eq. Qed.

Lemma get_history_appended_ne (s : store) (k k' : Z) (m : message) :
  k ≠ k' → get_history (appended s k m) k' = get_history s k'.
Proof.
  intros Hne. unfold appended, get_history at 1. cbn.
  by rewrite lookup_insert_ne.
Qed.

(** One or more appends to one chat leave the last twelve of the turns
    that were there followed by the new ones. *)
Lemma get_history_appended_all (chat_id : Z) (m : message) (ms : list message)
    (s : store) :
  get_history (foldl (λ s m, appended s chat_id m) (appended s chat_id m) ms) chat_id
  = slice (get_history s chat_id ++ m :: ms) (Some (-12)) None.
Proof.
  revert s m. induction ms as [|m' ms IH]; intros s m; cbn [foldl].
  - apply get_history_appended.
  - rewrite IH, get_history_appended, slice_last_12_app.
    by rewrite <- app_assoc.
Qed.

(** ** The bound on the history *)

Lemma bounded_initial : bounded initial_store.
Proof. intros k. unfold get_history, initial_store. cbn. rewrite lookup_empty. cbn. lia. Qed.

Lemma bounded_appended (s : store) (chat_id : Z) (m : message) :
  bounded s → bounded (appended s chat_id m).
Proof.
  intros Hs k. destruct (decide (chat_id = k)) as [<-|Hne].
  - rewrite get_history_appended. apply length_slice_last_12.
  - rewrite get_history_appended_ne by done. apply Hs.
Qed.

Lemma bounded_appended_all (cs : list call) (s : store) :
  bounded s →
  bounded (foldl (λ s c, appended s (chat_of c) (message_of c)) s cs).
Proof.
  revert s. induction cs as [|c cs IH]; intros s Hs; cbn [foldl]; [done|].
  by apply IH, bounded_appended.
Qed.

(** C1.  After an append to a chat, from any store whatever, that chat's
    history has at most 12 entries; and after any sequence of appends
    (user or assistant, any chats, any texts) from the empty store, every
    chat's history has at most 12 entries.  Every append returns
    normally. *)
Theorem history_at_most_12 :
  (∀ s chat_id text, ∃ s',
      add_user_message chat_id text s = (Return (), s', [])
      ∧ (length (get_history s' chat_id) ≤ 12)%nat)
  ∧ (∀ s chat_id text, ∃ s',
      add_assistant_message chat_id text s = (Return (), s', [])
      ∧ (length (get_history s' chat_id) ≤ 12)%nat)
  ∧ (∀ cs chat_id, ∃ s',
      run cs initial_store = (Return (), s', [])
      ∧ (length (get_history s' chat_id) ≤ 12)%nat).
Proof.
  split; [|split].
  - intros s k text. eexists. split; [apply add_user_message_eq|].
    rewrite get_history_appended. apply length_slice_last_12.
  - intros s k text. eexists. split; [apply add_assistant_message_eq|].
    rewrite get_history_appended. apply length_slice_last_12.
  - intros cs k. eexists. split; [apply run_eq|].
    apply bounded_appended_all, bounded_initial.
Qed.

(** ** FIFO truncation *)

Lemma slice_last_12_full {A} (l : list A) (x : A) :
  length l = 12%nat → slice (l ++ [x]) (Some (-12)) None = tail l ++ [x].
Proof.
  intros Hl. rewrite slice_last_12, length_app, Hl. cbn [length].
  destruct l as [|y l]; [done|].
  replace (12 + 1 - 12)%nat with 1%nat by lia. done.
Qed.

Lemma foldl_user_appends (k : Z) (texts : list str) (s : store) :
  foldl (λ s c, appended s (chat_of c) (message_of c)) s (map (AppendUser k) texts)
  = foldl (λ s m, appended s k m) s (map (Message user_role) texts).
Proof.
  revert s. induction texts as [|t texts IH]; intros s; cbn; [done|].
  apply IH.
Qed.

Lemma slice_last_12_of_13 {A} (h : list A) (x : A) (l : list A) :
  length l = 12%nat → slice (h ++ x :: l) (Some (-12)) None = l.
Proof.
  intros Hl. rewrite slice_last_12, length_app. cbn [length]. rewrite Hl.
  rewrite drop_app, drop_ge by lia.
  replace (length h + 13 - 12 - length h)%nat with 1%nat by lia. done.
Qed.

(** C2.  On a history of 12 turns an append (user or assistant) leaves the
    last 11 of them, in their order, followed by the new turn.  Thirteen
    user appends of "m1" .. "m13" to one chat, from any store, leave
    exactly the turns "m2" .. "m13" in order. *)
Theorem truncation_is_fifo (s : store) (chat_id : Z) (text : str)
    (Hfull : length (get_history s chat_id) = 12%nat) :
  (∃ s', add_user_message chat_id text s = (Return (), s', [])
         ∧ get_history s' chat_id
           = tail (get_history s chat_id) ++ [Message user_role text])
  ∧ (∃ s', add_assistant_message chat_id text s = (Return (), s', [])
         ∧ get_history s' chat_id
           = tail (get_history s chat_id) ++ [Message assistant_role text])
  ∧ (∀ s0 k, ∃ s',
        run (map (AppendUser k) (m_texts 1 13)) s0 = (Return (), s', [])
        ∧ get_history s' k = m_turns 2 12
        ∧ map content (get_history s' k)
          = map lit ["m2"; "m3"; "m4"; "m5"; "m6"; "m7"; "m8"; "m9";
                     "m10"; "m11"; "m12"; "m13"]%string).
Proof.
  split; [|split].
  - eexists. split; [apply add_user_message_eq|].
    rewrite get_history_appended. by apply slice_last_12_full.
  - eexists. split; [apply add_assistant_message_eq|].
    rewrite get_history_appended. by apply slice_last_12_full.
  - intros s0 k. eexists. split; [apply run_eq|].
    assert (get_history
              (foldl (λ s c, appended s (chat_of c) (message_of c)) s0
                 (map (AppendUser k) (m_texts 1 13))) k
            = m_turns 2 12) as ->; [|split; [done | by vm_compute]].
    rewrite foldl_user_appends.
    change (map (Message user_role) (m_texts 1 13))
      with (Message user_role (lit "m1") :: m_turns 2 12).
    cbn [foldl]. rewrite get_history_appended_all.
    by apply slice_last_12_of_13.
Qed.

Lemma truncation_is_fifo_witness :
  length (get_history (Store {[ 42 := twelve_turns ]} ∅) 42) = 12%nat
  ∧ ∃ s', add_user_message 42 (lit "new") (Store {[ 42 := twelve_turns ]} ∅)
          = (Return (), s', [])
          ∧ get_history s' 42
            = tail twelve_turns ++ [Message user_role (lit "new")].
Proof.
  split; [reflexivity|].
  exact (proj1 (truncation_is_fifo
                  (Store {[ 42 := twelve_turns ]} ∅) 42 (lit "new") eq_refl)).
Defined.

(** ** Prompt assembly *)

Lemma build_messages_eq (s : store) (chat_id : Z) (user_text : str) :
  build_messages chat_id user_text s
  = (Return (system_entry s chat_id
             ++ get_history s chat_id
             ++ [Message user_role user_text]), s, []).
Proof.
  unfold build_messages, system_entry, get_history, bind, prompts_contains,
    prompts_getitem, histories_get, ret.
  destruct (system_prompts s !! chat_id) as [p|] eqn:Hp.
  - rewrite bool_decide_eq_true_2 by eauto. by rewrite Hp.
  - rewrite bool_decide_eq_false_2 by (intros [? ?]; done). done.
Qed.

(** C3.  With a prompt stored for the chat, [build_messages] returns the
    system message holding it, then the stored history in its order, then
    the new user message.  With none stored it returns the history and the
    new user message only.  Either way it returns normally, leaves the
    store as it was and performs no effect. *)
Theorem build_messages_spec (s : store) (chat_id : Z) (user_text : str) :
  (∀ p, system_prompts s !! chat_id = Some p →
        build_messages chat_id user_text s
        = (Return ([Message system_role p]
                   ++ get_history s chat_id
                   ++ [Message user_role user_text]), s, []))
  ∧ (system_prompts s !! chat_id = None →
     build_messages chat_id user_text s
     = (Return (get_history s chat_id ++ [Message user_role user_text]), s, [])).
Proof.
  split.
  - intros p Hp. rewrite build_messages_eq. unfold system_entry. by rewrite Hp.
  - intros Hp. rewrite build_messages_eq. unfold system_entry. by rewrite Hp.
Qed.

Lemma build_messages_spec_witness :
  system_prompts two_chats !! 2 = Some (lit "kind")
  ∧ build_messages 2 (lit "hi") two_chats
    = (Return [Message system_role (lit "kind");
               Message user_role (lit "earlier");
               Message user_role (lit "hi")], two_chats, []).
Proof.
  split; [reflexivity|].
  exact (proj1 (build_messages_spec two_chats 2 (lit "hi")) (lit "kind") eq_refl).
Defined.

(** ** Commands *)

(** C6.  [/setprompt] without arguments leaves the whole store as it was
    and replies with the usage message; with arguments it stores their
    join under the chat, over any earlier prompt, and leaves the histories
    as they were. *)
Theorem setprompt_spec (s : store) (chat_id : Z) :
  setprompt chat_id [] s = (Return (), s, [ReplyText usage_reply])
  ∧ ∀ args, args ≠ [] →
      ∃ s', setprompt chat_id args s
            = (Return (), s', [ReplyText (lit "System prompt set for this chat.")])
            ∧ system_prompts s' !! chat_id = Some (join (lit " ") args)
            ∧ chat_histories s' = chat_histories s.
Proof.
  split; [done|].
  intros [|a args] Hargs; [done|].
  eexists. split; [reflexivity|]. cbn [system_prompts chat_histories].
  split; [apply lookup_insert_eq | done].
Qed.

Lemma setprompt_spec_witness :
  [lit "be"; lit "brief"] ≠ []
  ∧ ∃ s', setprompt 7 [lit "be"; lit "brief"] (Store ∅ {[ 7 := lit "old" ]})
          = (Return (), s', [ReplyText (lit "System prompt set for this chat.")])
          ∧ system_prompts s' !! 7 = Some (lit "be brief")
          ∧ chat_histories s' = ∅.
Proof.
  split; [done|].
  exact (proj2 (setprompt_spec (Store ∅ {[ 7 := lit "old" ]}) 7)
           [lit "be"; lit "brief"] ltac:(done)).
Defined.

Lemma clearprompt_eq (s : store) (chat_id : Z) :
  clearprompt chat_id s
  = (Return (),
     Store (chat_histories s) (delete chat_id (system_prompts s)),
     [ReplyText (lit "System prompt removed (if any).")]).
Proof.
  unfold clearprompt, bind, prompts_contains, prompts_delitem, ret, reply_text, emit.
  destruct (system_prompts s !! chat_id) as [p|] eqn:Hp.
  - rewrite bool_decide_eq_true_2 by eauto. by rewrite Hp.
  - rewrite bool_decide_eq_false_2 by (intros [? ?]; done). cbn.
    rewrite delete_id by done. by destruct s.
Qed.

Lemma clear_history_eq (s : store) (chat_id : Z) :
  clear_history chat_id s
  = (Return (),
     Store (delete chat_id (chat_histories s)) (system_prompts s),
     [ReplyText (lit "Conversation history cleared.")]).
Proof. done. Qed.

(** C7.  [/clear] returns normally whatever the store holds, and the
    chat's history reads empty afterwards.  [/clearprompt] returns normally
    whatever the store holds, and [build_messages] then yields the history
    and the new user message only, with no system entry. *)
Theorem clear_commands_spec (s : store) (chat_id : Z) :
  (∃ s', clear_history chat_id s
         = (Return (), s', [ReplyText (lit "Conversation history cleared.")])
         ∧ get_history s' chat_id = [])
  ∧ (∃ s', clearprompt chat_id s
           = (Return (), s', [ReplyText (lit "System prompt removed (if any).")])
           ∧ ∀ user_text,
               build_messages chat_id user_text s'
               = (Return (get_history s chat_id ++ [Message user_role user_text]),
                  s', [])).
Proof.
  split.
  - eexists. split; [apply clear_history_eq|].
    unfold get_history. cbn. by rewrite lookup_delete_eq.
  - eexists. split; [apply clearprompt_eq|].
    intros user_text. rewrite build_messages_eq.
    unfold system_entry, get_history. cbn. by rewrite lookup_delete_eq.
Qed.

(** ** Isolation *)

Lemma appended_frame (s : store) (chat_id : Z) (m : message) :
  system_prompts (appended s chat_id m) = system_prompts s
  ∧ ∀ k, k ≠ chat_id →
      chat_histories (appended s chat_id m) !! k = chat_histories s !! k.
Proof.
  split; [done|]. intros k Hk. unfold appended. cbn.
  by rewrite lookup_insert_ne.
Qed.

(** C8.  Appending a turn and clearing the history change nothing but the
    history of the chat they are called for: every prompt, and the history
    of every other chat, stay as they were.  Setting and clearing the
    prompt change nothing but the prompt of the chat they are called for:
    every history, and the prompt of every other chat, stay as they
    were. *)
Theorem store_isolation (chat_id : Z) (text : str) (args : list str) :
  touches_history_of chat_id (add_user_message chat_id text)
  ∧ touches_history_of chat_id (add_assistant_message chat_id text)
  ∧ touches_history_of chat_id (clear_history chat_id)
  ∧ touches_prompt_of chat_id (setprompt chat_id args)
  ∧ touches_prompt_of chat_id (clearprompt chat_id).
Proof.
  repeat split.
  - intros s. do 2 eexists. split; [apply add_user_message_eq|].
    apply appended_frame.
  - intros s. do 2 eexists. split; [apply add_assistant_message_eq|].
    apply appended_frame.
  - intros s. do 2 eexists. split; [apply clear_history_eq|].
    split; [done|]. intros k Hk. cbn. by rewrite lookup_delete_ne.
  - intros s. destruct args as [|a args].
    + do 2 eexists. split; [reflexivity|]. done.
    + do 2 eexists. split; [reflexivity|].
      split; [done|]. intros k Hk. cbn. by rewrite lookup_insert_ne.
  - intros s. do 2 eexists. split; [apply clearprompt_eq|].
    split; [done|]. intros k Hk. cbn. by rewrite lookup_delete_ne.
Qed.

Lemma store_isolation_witness :
  ∃ s' t,
    clearprompt 1 two_chats = (Return (), s', t)
    ∧ chat_histories s' = chat_histories two_chats
    ∧ system_prompts s' !! 2 = Some (lit "kind").
Proof.
  destruct (proj2 (proj2 (proj2 (proj2 (store_isolation 1 [] [])))) two_chats)
    as (s' & t & Hrun & Hhist & Hother).
  exists s', t. split; [exact Hrun|]. split; [exact Hhist|].
  exact (Hother 2 ltac:(discriminate)).
Defined.

(** ** The relay handler *)

Lemma for_each_reply_text (xs : list str) (s : store) :
  for_each xs reply_text s = (Return (), s, map ReplyText xs).
Proof.
  induction xs as [|x xs IH]; [done|].
  cbn [for_each map]. unfold bind, reply_text at 1, emit. by rewrite IH.
Qed.

Lemma handle_message_eq (create : request → outcome response)
    (chat_id : Z) (user_text : str) (s : store) :
  let req := request_sent s chat_id user_text in
  let o := extracted (create req) in
  handle_message create chat_id user_text s
  = (Return (),
     appended (appended s chat_id (Message user_role user_text)) chat_id
       (Message assistant_role (recovered o)),
     SendAction (lit "typing") :: ApiCall req
       :: logged o ++ map ReplyText (chunks (recovered o))).
Proof.
  intros req o. unfold handle_message.
  unfold bind at 1. cbn [emit].
  unfold bind at 1. rewrite add_user_message_eq.
  unfold bind at 1. rewrite build_messages_eq.
  fold req.
  unfold bind at 1.
  assert (∀ s1, try_except
            (resp <- completions_create create req ;;
             c <- first_item (choices resp) ;; content_strip c)
            (λ e, emit (LogException (lit "OpenAI error")) ;;
                  ret (failure_prefix ++ exn_str e)) s1
          = (Return (recovered o), s1, ApiCall req :: logged o)) as ->.
  { intros s1. subst o.
    unfold try_except, completions_create, bind, emit, lift, first_item,
      content_strip, extracted, ret, raise.
    destruct (create req) as [[[|[[text|]] cs]]|e]; done. }
  unfold bind. rewrite add_assistant_message_eq, for_each_reply_text.
  cbn [app]. done.
Qed.

(** ** Chunks *)

Section Windows.

Context {A : Type} (n : nat) (l : list A).

(** Cutting [l] into windows of width [n], the [k]-th starting at
    [k * n]. *)
Lemma concat_windows (m : nat) :
  concat (map (λ k, take n (drop (k * n) l)) (seq 0 m)) = take (m * n) l.
Proof.
  induction m as [|m IH]; [done|].
  rewrite seq_S, map_app, concat_app, IH. cbn [map concat Nat.add].
  rewrite app_nil_r, take_take_drop. f_equal. lia.
Qed.

End Windows.

Lemma chunks_eq (reply : str) (n : nat) :
  Z.of_nat n = 3900 →
  chunks reply
  = map (λ k, take n (drop (k * n) reply))
        (seq 0 (Z.to_nat ((len reply + 3899) / 3900))).
Proof.
  intros Hn. unfold chunks. rewrite range_from_0 by lia.
  replace (len reply + 3900 - 1) with (len reply + 3899) by lia.
  rewrite map_map. apply map_ext. intros k.
  rewrite slice_window by lia. do 2 f_equal; lia.
Qed.

Lemma chunk_count (reply : str) :
  let m := (len reply + 3899) / 3900 in
  0 ≤ m ∧ len reply ≤ m * 3900 < len reply + 3900.
Proof.
  intros m. subst m.
  pose proof (Z.div_mod (len reply + 3899) 3900 ltac:(lia)) as Hdm.
  pose proof (Z.mod_pos_bound (len reply + 3899) 3900 ltac:(lia)) as Hm.
  unfold len in *. lia.
Qed.

Lemma concat_chunks (reply : str) : concat (chunks reply) = reply.
Proof.
  assert (Z.of_nat (Z.to_nat 3900) = 3900) as Hn by lia.
  revert Hn. generalize (Z.to_nat 3900) as n. intros n Hn.
  pose proof (chunk_count reply) as (Hm0 & Hlo & Hhi).
  rewrite (chunks_eq reply n Hn), concat_windows.
  apply take_ge. unfold len in *. nia.
Qed.

(** C5.  The chunks of a reply concatenate to the reply; every chunk has
    between 1 and 3900 characters and every chunk but the last exactly
    3900; a reply of 8000 characters gives three chunks, of 3900, 3900 and
    200 characters. *)
Theorem chunks_spec (reply : str) :
  concat (chunks reply) = reply
  ∧ Forall (λ c, 0 < len c ≤ 3900) (chunks reply)
  ∧ (∀ i c, chunks reply !! i = Some c →
            (S i < length (chunks reply))%nat → len c = 3900)
  ∧ (len reply = 8000 → map len (chunks reply) = [3900; 3900; 200]).
Proof.
  split; [apply concat_chunks|].
  assert (Z.of_nat (Z.to_nat 3900) = 3900) as Hn by lia.
  revert Hn. generalize (Z.to_nat 3900) as n. intros n Hn.
  pose proof (chunk_count reply) as (Hm0 & Hlo & Hhi).
  rewrite (chunks_eq reply n Hn).
  set (m := Z.to_nat ((len reply + 3899) / 3900)) in *.
  assert (Z.of_nat m = (len reply + 3899) / 3900) as Hm by lia.
  unfold len in *.
  split; [|split].
  - apply Forall_forall. intros c Hc.
    apply list_elem_of_fmap in Hc as (k & -> & Hk).
    apply elem_of_seq in Hk.
    rewrite length_take, length_drop. nia.
  - intros i c Hi Hlast. rewrite length_map, length_seq in Hlast.
    rewrite list_lookup_fmap in Hi.
    destruct (seq 0 m !! i) as [k|] eqn:Hk; [|done].
    apply lookup_seq in Hk as [-> _]. cbn in Hi. injection Hi as <-.
    rewrite length_take, length_drop. nia.
  - intros H8000. subst m. rewrite H8000.
    change (Z.to_nat ((8000 + 3899) / 3900)) with 3%nat.
    cbn [seq map]. rewrite !length_take, !length_drop.
    repeat f_equal; lia.
Qed.

Lemma chunks_spec_witness :
  len reply_of_8000 = 8000
  ∧ map len (chunks reply_of_8000) = [3900; 3900; 200].
Proof.
  split; [by vm_compute|].
  apply (chunks_spec reply_of_8000). by vm_compute.
Defined.

(** ** What the handler sends and records *)

Lemma slice_last_12_snoc {A} (h : list A) (x : A) :
  slice (h ++ [x]) (Some (-12)) None = drop (length h - 11)%nat h ++ [x].
Proof.
  rewrite slice_last_12, length_app, drop_app. cbn [length].
  replace (length h + 1 - 12 - length h)%nat with 0%nat by lia.
  cbn [drop]. do 2 f_equal. lia.
Qed.

Lemma last_slice_last_12 {A} (h : list A) (x : A) :
  last (slice (h ++ [x]) (Some (-12)) None) = Some x.
Proof. rewrite slice_last_12_snoc. apply last_snoc. Qed.

Lemma replies_handle (req : request) (o : outcome str) (cs : list str) :
  replies (SendAction (lit "typing") :: ApiCall req
             :: logged o ++ map ReplyText cs) = cs.
Proof.
  unfold replies. cbn [omap list_omap].
  change (list_omap ?f ?l) with (omap f l).
  rewrite omap_app.
  replace (omap _ (logged o)) with (@nil str) by (by destruct o).
  cbn [app]. induction cs as [|c cs IH]; [done|].
  cbn. f_equal. apply IH.
Qed.

Lemma no_api_call_after (o : outcome str) (cs : list str) :
  forallb (λ ev, negb (is_api_call ev)) (logged o ++ map ReplyText cs) = true.
Proof.
  rewrite forallb_app. apply andb_true_iff. split.
  - by destruct o.
  - induction cs as [|c cs IH]; [done|]. apply IH.
Qed.

(** C4.  The handler returns normally whatever the call does.  When the
    call raises [e], the reply is the fixed prefix followed by [str(e)]:
    the error is logged, the chunks sent are those of that text and
    concatenate to it, and the chat's history becomes the last 12 of the
    old history, the user turn and an assistant turn holding that text. *)
Theorem api_failure_recovered (create : request → outcome response)
    (s : store) (chat_id : Z) (user_text : str) (e : exn)
    (Hfail : create (request_sent s chat_id user_text) = Raise e) :
  let failure := failure_prefix ++ exn_str e in
  (∀ create' s0 k text, ∃ s' t,
      handle_message create' k text s0 = (Return (), s', t))
  ∧ ∃ s',
      handle_message create chat_id user_text s
      = (Return (), s',
         [SendAction (lit "typing");
          ApiCall (request_sent s chat_id user_text);
          LogException (lit "OpenAI error")]
         ++ map ReplyText (chunks failure))
      ∧ concat (chunks failure) = failure
      ∧ get_history s' chat_id
        = slice (get_history s chat_id
                 ++ [Message user_role user_text;
                     Message assistant_role failure]) (Some (-12)) None
      ∧ last (get_history s' chat_id) = Some (Message assistant_role failure).
Proof.
  intros failure. split.
  - intros create' s0 k text. do 2 eexists. apply handle_message_eq.
  - eexists. split; [|split; [|split]].
    + rewrite handle_message_eq, Hfail. reflexivity.
    + apply concat_chunks.
    + rewrite !get_history_appended, slice_last_12_app.
      by rewrite <- app_assoc.
    + rewrite get_history_appended. apply last_slice_last_12.
Qed.

Lemma api_failure_recovered_witness :
  ∃ s',
    handle_message (λ _, Raise connection_error) 42 (lit "hello") initial_store
    = (Return (), s',
       [SendAction (lit "typing");
        ApiCall (request_sent initial_store 42 (lit "hello"));
        LogException (lit "OpenAI error");
        ReplyText (failure_prefix ++ lit "Connection error.")])
    ∧ get_history s' 42
      = [Message user_role (lit "hello");
         Message assistant_role (failure_prefix ++ lit "Connection error.")].
Proof.
  destruct (proj2 (api_failure_recovered (λ _, Raise connection_error)
                     initial_store 42 (lit "hello") connection_error eq_refl))
    as (s' & Hrun & _ & Hhist & _).
  exists s'. split; [exact Hrun | exact Hhist].
Defined.

(** C9.  The handler makes exactly one call, right after the typing
    action, and the message list of its request ends with the new user
    message twice in a row. *)
Theorem user_message_sent_twice (create : request → outcome response)
    (s : store) (chat_id : Z) (user_text : str) :
  ∃ s' front rest,
    handle_message create chat_id user_text s
    = (Return (), s',
       SendAction (lit "typing")
       :: ApiCall (Request (lit "gpt-3.5-turbo")
                     (front ++ [Message user_role user_text;
                                Message user_role user_text]) 800)
       :: rest)
    ∧ forallb (λ ev, negb (is_api_call ev)) rest = true.
Proof.
  eexists _, (system_entry _ chat_id ++ drop _ (get_history s chat_id)), _.
  split; [|apply no_api_call_after].
  rewrite handle_message_eq. unfold request_sent.
  rewrite get_history_appended, slice_last_12_snoc.
  rewrite <- !app_assoc. reflexivity.
Qed.

(** C10.  Content that strips to the empty string makes the handler send
    the typing action and the request and nothing else, and record an
    assistant turn with empty content.  In every case the texts sent are
    the chunks of the reply recorded as the last assistant turn: none if
    that reply is empty, at least one otherwise. *)
Theorem empty_reply_sends_nothing :
  (∀ create s chat_id user_text text rest,
      create (request_sent s chat_id user_text)
      = Return (Response (Choice (Some text) :: rest)) →
      strip text = [] →
      ∃ s', handle_message create chat_id user_text s
            = (Return (), s',
               [SendAction (lit "typing");
                ApiCall (request_sent s chat_id user_text)])
            ∧ last (get_history s' chat_id) = Some (Message assistant_role []))
  ∧ (∀ create s chat_id user_text, ∃ s' t reply,
      handle_message create chat_id user_text s = (Return (), s', t)
      ∧ last (get_history s' chat_id) = Some (Message assistant_role reply)
      ∧ replies t = chunks reply
      ∧ (reply = [] → replies t = [])
      ∧ (reply ≠ [] → replies t ≠ [])).
Proof.
  split.
  - intros create s k user_text text rest Hok Hstrip.
    eexists. split.
    + rewrite handle_message_eq, Hok. cbn [extracted choices message_content].
      rewrite Hstrip. reflexivity.
    + rewrite get_history_appended. apply last_slice_last_12.
  - intros create s k user_text.
    eexists _, _, _. split; [apply handle_message_eq|].
    split; [rewrite get_history_appended; apply last_slice_last_12|].
    rewrite replies_handle.
    split; [done|]. split.
    + by intros ->.
    + intros Hne Hnil. apply Hne.
      set (reply := recovered _) in *.
      pose proof (concat_chunks reply) as Hcat. by rewrite Hnil in Hcat.
Qed.

Lemma empty_reply_sends_nothing_witness :
  ∃ s', handle_message (λ _, Return blank_response) 42 (lit "hello") initial_store
        = (Return (), s',
           [SendAction (lit "typing");
            ApiCall (request_sent initial_store 42 (lit "hello"))])
        ∧ last (get_history s' 42) = Some (Message assistant_role []).
Proof.
  exact (proj1 empty_reply_sends_nothing (λ _, Return blank_response)
           initial_store 42 (lit "hello") (lit "  ") [] eq_refl eq_refl).
Defined.

(** ** Start-up *)

(** X1.  Loading the module passes the check of lines 14-15 exactly when
    both variables are set to non-empty strings; otherwise it raises the
    [RuntimeError] of line 15, also for a variable set to the empty
    string. *)
Theorem load_config_spec (telegram_token openai_api_key : option str) :
  (load_config telegram_token openai_api_key = Return ()
   ↔ ∃ t k, telegram_token = Some t ∧ openai_api_key = Some k
            ∧ t ≠ [] ∧ k ≠ [])
  ∧ (load_config telegram_token openai_api_key = Return ()
     ∨ load_config telegram_token openai_api_key
       = Raise (RuntimeError
                  (lit "Set TELEGRAM_BOT_TOKEN and OPENAI_API_KEY in .env")))
  ∧ load_config (Some []) openai_api_key ≠ Return ()
  ∧ load_config telegram_token (Some []) ≠ Return ().
Proof.
  unfold load_config. split; [|split; [|split]].
  - destruct telegram_token as [[|a t]|], openai_api_key as [[|b k]|]; cbn;
      (split; [try done | intros (? & ? & ? & ? & ? & ?); congruence]).
    intros _. by eexists _, _.
  - destruct (falsy telegram_token || falsy openai_api_key); auto.
  - done.
  - by destruct telegram_token as [[|a t]|].
Qed.

(** ** One update after another *)

Lemma start_eq (s : store) : start s = (Return (), s, [ReplyText start_text]).
Proof. done. Qed.

Lemma help_cmd_eq (s : store) : help_cmd s = (Return (), s, [ReplyText help_text]).
Proof. done. Qed.

Lemma setprompt_eq (chat_id : Z) (args : list str) (s : store) :
  setprompt chat_id args s
  = match args with
    | [] => (Return (), s, [ReplyText usage_reply])
    | _ => (Return (),
            Store (chat_histories s)
                  (<[chat_id := join (lit " ") args]> (system_prompts s)),
            [ReplyText (lit "System prompt set for this chat.")])
    end.
Proof. by destruct args. Qed.

Lemma dispatch_returns (u : update) (s : store) : (dispatch u s).1.1 = Return ().
Proof.
  destruct u as [| |k args|k|k|k text create]; cbn [dispatch].
  - done.
  - done.
  - rewrite setprompt_eq. by destruct args.
  - by rewrite clearprompt_eq.
  - done.
  - by rewrite handle_message_eq.
Qed.

Lemma run_polling_cons (u : update) (us : list update) (s : store) :
  run_polling (u :: us) s
  = ((run_polling us (store_after (dispatch u) s)).1.1,
     (run_polling us (store_after (dispatch u) s)).1.2,
     (dispatch u s).2 ++ (run_polling us (store_after (dispatch u) s)).2).
Proof.
  unfold run_polling, store_after. cbn [for_each]. unfold bind.
  pose proof (dispatch_returns u s) as Hret.
  destruct (dispatch u s) as [[o s1] t1]. cbn in Hret. subst o. cbn.
  by destruct (for_each us dispatch s1) as [[o2 s2] t2].
Qed.


(** *** Whole exchanges *)


Lemma length_turns_of (ps : list (str * str)) :
  length (turns_of ps) = (2 * length ps)%nat.
Proof.
  induction ps as [|p ps IH]; [done|].
  unfold turns_of in *. cbn [flat_map app length]. lia.
Qed.







Lemma load_config_spec_witness :
  load_config (Some (lit "123:abc")) (Some (lit "sk-1")) = Return ().
Proof.
  apply (proj1 (load_config_spec (Some (lit "123:abc")) (Some (lit "sk-1")))).
  by exists (lit "123:abc"), (lit "sk-1").
Defined.

(** *** Calls to the API *)





(** *** What a run leaves alone *)

Lemma dispatch_keeps_prompt (k : Z) (u : update) (s : store) :
  writes_prompt k u = false →
  system_prompts (store_after (dispatch u) s) !! k = system_prompts s !! k.
Proof.
  unfold store_after.
  destruct u as [| |k' args|k'|k'|k' text create]; cbn [dispatch writes_prompt];
    intros Hk; try apply bool_decide_eq_false in Hk.
  - done.
  - done.
  - rewrite setprompt_eq. destruct args; [done|]. cbn. by rewrite lookup_insert_ne.
  - rewrite clearprompt_eq. cbn. by rewrite lookup_delete_ne.
  - done.
  - by rewrite handle_message_eq.
Qed.

Lemma dispatch_keeps_history (k : Z) (u : update) (s : store) :
  writes_history k u = false →
  chat_histories (store_after (dispatch u) s) !! k = chat_histories s !! k.
Proof.
  unfold store_after.
  destruct u as [| |k' args|k'|k'|k' text create]; cbn [dispatch writes_history];
    intros Hk; try apply bool_decide_eq_false in Hk.
  - done.
  - done.
  - rewrite setprompt_eq. by destruct args.
  - by rewrite clearprompt_eq.
  - rewrite clear_history_eq. cbn. by rewrite lookup_delete_ne.
  - rewrite handle_message_eq. cbn. by rewrite !lookup_insert_ne.
Qed.

(** X4.  The prompt of a chat changes only through [/setprompt] and
    [/clearprompt] of that chat, and its history only through its own
    messages and its own [/clear]: a run of updates with none of the
    former leaves the prompt as it was, a run with none of the latter
    leaves the history as it was, whatever else happens in between. *)
Theorem polling_frame (us : list update) (s : store) (k : Z) :
  (forallb (λ u, negb (writes_prompt k u)) us = true →
   system_prompts (store_after (run_polling us) s) !! k = system_prompts s !! k)
  ∧ (forallb (λ u, negb (writes_history k u)) us = true →
     chat_histories (store_after (run_polling us) s) !! k = chat_histories s !! k).
Proof.
  split; revert s; induction us as [|u us IH]; intros s Hus; try done.
  - cbn [forallb] in Hus. apply andb_true_iff in Hus as [Hu Hus].
    apply negb_true_iff in Hu.
    unfold store_after in *. rewrite run_polling_cons. cbn.
    rewrite IH by done. by apply dispatch_keeps_prompt.
  - cbn [forallb] in Hus. apply andb_true_iff in Hus as [Hu Hus].
    apply negb_true_iff in Hu.
    unfold store_after in *. rewrite run_polling_cons. cbn.
    rewrite IH by done. by apply dispatch_keeps_history.
Qed.

Lemma polling_frame_witness :
  system_prompts
    (store_after
       (run_polling [TextMessage 2 (lit "hi") (λ _, Raise connection_error);
                     ClearCommand 2; SetpromptCommand 1 [lit "brief"];
                     HelpCommand])
       two_chats) !! 2
  = Some (lit "kind").
Proof.
  exact (proj1 (polling_frame
                  [TextMessage 2 (lit "hi") (λ _, Raise connection_error);
                   ClearCommand 2; SetpromptCommand 1 [lit "brief"];
                   HelpCommand] two_chats 2) eq_refl).
Defined.

(** ** More on one message *)

(** X5.  When the call answers and its first choice has content, the
    reply is that content stripped: nothing is logged, the chat's history
    becomes the last 12 of the old history, the user turn and an assistant
    turn holding the reply, the prompts stay as they were, and the texts
    sent are the chunks of the reply. *)
Theorem handle_message_success (create : request → outcome response)
    (s : store) (chat_id : Z) (user_text text : str) (more : list choice)
    (Hok : create (request_sent s chat_id user_text)
           = Return (Response (Choice (Some text) :: more))) :
  ∃ s',
    handle_message create chat_id user_text s
    = (Return (), s',
       [SendAction (lit "typing"); ApiCall (request_sent s chat_id user_text)]
       ++ map ReplyText (chunks (strip text)))
    ∧ get_history s' chat_id
      = slice (get_history s chat_id
               ++ [Message user_role user_text;
                   Message assistant_role (strip text)]) (Some (-12)) None
    ∧ system_prompts s' = system_prompts s.
Proof.
  eexists. split; [|split].
  - rewrite handle_message_eq, Hok. reflexivity.
  - rewrite !get_history_appended, slice_last_12_app. by rewrite <- app_assoc.
  - done.
Qed.

Lemma handle_message_success_witness :
  ∃ s',
    handle_message (λ _, Return (Response [Choice (Some (lit " hi there "))]))
      42 (lit "hello") initial_store
    = (Return (), s',
       [SendAction (lit "typing");
        ApiCall (request_sent initial_store 42 (lit "hello"));
        ReplyText (lit "hi there")])
    ∧ get_history s' 42
      = [Message user_role (lit "hello"); Message assistant_role (lit "hi there")]
    ∧ system_prompts s' = ∅.
Proof.
  exact (handle_message_success
           (λ _, Return (Response [Choice (Some (lit " hi there "))]))
           initial_store 42 (lit "hello") (lit " hi there ") [] eq_refl).
Defined.

Lemma length_system_entry (s : store) (chat_id : Z) :
  (length (system_entry s chat_id) ≤ 1)%nat.
Proof. unfold system_entry. destruct (system_prompts s !! chat_id); cbn; lia. Qed.

(** X6.  Whatever the store holds, the request of a message carries the
    model name and the output limit of lines 105-107 and between 2 and 14
    messages: at most one system message, at most 12 turns of history, and
    the new user message.  Without a stored prompt it carries at most
    13. *)
Theorem request_size (create : request → outcome response)
    (s : store) (chat_id : Z) (user_text : str) :
  ∃ s' msgs rest,
    handle_message create chat_id user_text s
    = (Return (), s',
       SendAction (lit "typing")
       :: ApiCall (Request (lit "gpt-3.5-turbo") msgs 800) :: rest)
    ∧ 2 ≤ len msgs ≤ 14
    ∧ (system_prompts s !! chat_id = None → len msgs ≤ 13).
Proof.
  eexists _, _, _. split; [apply handle_message_eq|].
  unfold len. rewrite !length_app, get_history_appended. cbn [length].
  pose proof (length_slice_last_12
                (get_history s chat_id ++ [Message user_role user_text])) as Hh.
  pose proof (length_system_entry
                (appended s chat_id (Message user_role user_text)) chat_id) as Hs.
  assert (1 ≤ length (slice (get_history s chat_id ++ [Message user_role user_text])
                        (Some (-12)%Z) None))%nat as Hne.
  { rewrite slice_last_12_snoc, length_app. cbn. lia. }
  split; [lia|].
  intros Hnone. unfold system_entry. cbn [system_prompts appended].
  rewrite Hnone. cbn [length]. lia.
Qed.

Lemma request_size_witness :
  ∃ s' msgs rest,
    handle_message (λ _, Raise connection_error) 42 (lit "hello") initial_store
    = (Return (), s',
       SendAction (lit "typing")
       :: ApiCall (Request (lit "gpt-3.5-turbo") msgs 800) :: rest)
    ∧ len msgs ≤ 13.
Proof.
  destruct (request_size (λ _, Raise connection_error) initial_store 42 (lit "hello"))
    as (s' & msgs & rest & Hrun & _ & Hnone).
  exists s', msgs, rest. split; [exact Hrun|]. exact (Hnone eq_refl).
Defined.

(** *** Stripping *)

Lemma lstrip_spec (s : str) :
  ∃ l, s = l ++ lstrip s ∧ forallb is_space l = true
       ∧ ∀ c, head (lstrip s) = Some c → is_space c = false.
Proof.
  induction s as [|c s (l & Hs & Hl & Hhead)].
  - exists []. by repeat split.
  - cbn [lstrip]. destruct (is_space c) eqn:Hc.
    + exists (c :: l). split; [by rewrite Hs at 1|].
      split; [cbn; by rewrite Hc, Hl | done].
    + exists []. split; [done|]. split; [done|].
      intros c' [= <-]. done.
Qed.

Lemma lstrip_snoc (s : str) (c : char) :
  is_space c = false → lstrip (s ++ [c]) = lstrip s ++ [c].
Proof.
  intros Hc. induction s as [|d s IH]; cbn [lstrip app].
  - by rewrite Hc.
  - by destruct (is_space d).
Qed.

Lemma last_rev_head {A} (l : list A) : last (rev l) = head l.
Proof. destruct l as [|x l]; [done|]. cbn [rev head]. apply last_snoc. Qed.

Lemma rstrip_spec (s : str) :
  ∃ r, s = rstrip s ++ r ∧ forallb is_space r = true
       ∧ ∀ c, last (rstrip s) = Some c → is_space c = false.
Proof.
  unfold rstrip. destruct (lstrip_spec (rev s)) as (l & Hs & Hl & Hhead).
  exists (rev l). split; [|split].
  - rewrite <- rev_app_distr, <- Hs. by rewrite rev_involutive.
  - rewrite forallb_forall in *. intros c Hc. apply Hl. by apply in_rev.
  - intros c. rewrite last_rev_head. apply Hhead.
Qed.

Lemma head_rstrip (s : str) (c : char) :
  head s = Some c → is_space c = false → head (rstrip s) = Some c.
Proof.
  destruct s as [|d s]; [done|]. intros [= ->] Hc.
  unfold rstrip. cbn [rev]. rewrite lstrip_snoc by done.
  by rewrite rev_app_distr.
Qed.

(** X7.  The reply taken from a choice is its content without the
    whitespace at its two ends: the content is a run of whitespace, the
    reply, and a run of whitespace, and the reply neither starts nor ends
    with whitespace.  Whitespace inside the reply stays. *)
Theorem content_strip_spec (text : str) (s : store) :
  ∃ l reply r,
    content_strip (Choice (Some text)) s = (Return reply, s, [])
    ∧ text = l ++ reply ++ r
    ∧ forallb is_space l = true
    ∧ forallb is_space r = true
    ∧ (∀ c, head reply = Some c → is_space c = false)
    ∧ (∀ c, last reply = Some c → is_space c = false).
Proof.
  destruct (lstrip_spec text) as (l & Htext & Hl & Hhead).
  destruct (rstrip_spec (lstrip text)) as (r & Hmid & Hr & Hlast).
  exists l, (strip text), r. split; [done|].
  split; [unfold strip; by rewrite <- Hmid|]. split; [done|]. split; [done|].
  split; [|done].
  intros c Hc. unfold strip in Hc.
  destruct (head (lstrip text)) as [d|] eqn:Hd.
  - pose proof (Hhead d eq_refl) as Hsp.
    rewrite (head_rstrip _ d Hd Hsp) in Hc. by injection Hc as <-.
  - destruct (lstrip text); [done | done].
Qed.

Lemma content_strip_spec_witness :
  ∃ l reply r,
    content_strip (Choice (Some (lit "  hi there "))) initial_store
    = (Return reply, initial_store, [])
    ∧ lit "  hi there " = l ++ reply ++ r
    ∧ head reply = Some 104%N ∧ is_space 104%N = false.
Proof.
  destruct (content_strip_spec (lit "  hi there ") initial_store)
    as (l & reply & r & Hrun & Htext & _ & _ & Hhead & _).
  exists l, reply, r. split; [exact Hrun|]. split; [exact Htext|].
  injection Hrun as <-. split; [reflexivity|]. exact (Hhead 104%N eq_refl).
Defined.

(** *** Where the chunks are cut *)

(** X8.  A reply of [n] characters is cut into [ceil (n / 3900)] chunks,
    the [k]-th being [reply[3900 k : 3900 k + 3900]]; a non-empty reply of
    at most 3900 characters is sent whole, as one message. *)
Theorem chunks_index (reply : str) :
  len (chunks reply) = (len reply + 3899) / 3900
  ∧ (∀ k c, chunks reply !! k = Some c →
            c = slice reply (Some (3900 * Z.of_nat k))
                            (Some (3900 * Z.of_nat k + 3900)))
  ∧ (0 < len reply ≤ 3900 → chunks reply = [reply]).
Proof.
  pose proof (chunk_count reply) as (Hm0 & Hlo & Hhi).
  split; [|split].
  - unfold chunks. rewrite range_from_0 by lia.
    replace (len reply + 3900 - 1) with (len reply + 3899) by lia.
    set (m := (len reply + 3899) / 3900) in *.
    unfold len. rewrite !length_map, length_seq. lia.
  - intros k c Hk. unfold chunks in Hk.
    rewrite range_from_0, list_lookup_fmap, list_lookup_fmap in Hk by lia.
    destruct (seq 0 _ !! k) as [i|] eqn:Hi; [|done].
    apply lookup_seq in Hi as [-> _].
    change (Some (slice reply (Some (Z.of_nat (0 + k) * 3900))
                    (Some (Z.of_nat (0 + k) * 3900 + 3900))) = Some c) in Hk.
    injection Hk as <-.
    by rewrite (Z.mul_comm 3900).
  - intros Hlen.
    assert (Z.of_nat (Z.to_nat 3900) = 3900) as Hn by lia.
    revert Hn. generalize (Z.to_nat 3900) as n. intros n Hn.
    rewrite (chunks_eq reply n Hn).
    replace ((len reply + 3899) / 3900) with 1 by lia.
    change (Z.to_nat 1) with 1%nat. cbn [seq map Nat.mul drop].
    f_equal. apply take_ge. unfold len in *. lia.
Qed.

Lemma chunks_index_witness :
  0 < len (lit "hi there") ≤ 3900 ∧ chunks (lit "hi there") = [lit "hi there"].
Proof.
  split; [done|].
  apply (chunks_index (lit "hi there")). done.
Defined.

Lemma first_chunk_of_failure (detail : str) :
  ∃ tail more, chunks (failure_prefix ++ detail) = (failure_prefix ++ tail) :: more.
Proof.
  assert (Z.of_nat (Z.to_nat 3900) = 3900) as Hn by lia.
  revert Hn. generalize (Z.to_nat 3900) as n. intros n Hn.
  pose proof (chunk_count (failure_prefix ++ detail)) as (Hm0 & Hlo & Hhi).
  rewrite (chunks_eq _ n Hn).
  assert (length failure_prefix = 27%nat) as Hp by done.
  destruct (Z.to_nat ((len (failure_prefix ++ detail) + 3899) / 3900))
    as [|m] eqn:Hm.
  { unfold len in *. rewrite length_app, Hp in *. lia. }
  cbn [seq map Nat.mul]. rewrite drop_0.
  rewrite take_app, (take_ge failure_prefix) by lia.
  by eexists _, _.
Qed.

(** X9.  A call that raises, a response without choices and a first
    choice whose content is [None] all end in the [except] clause: the
    handler logs, returns normally and records as the last assistant turn
    the fixed prefix followed by the text of the exception (for the two
    malformed responses that of the [IndexError] and of the
    [AttributeError]).  At least one message is sent, and the first one
    starts with the whole prefix. *)
Theorem failure_reply_shape (create : request → outcome response)
    (s : store) (chat_id : Z) (user_text : str) (e : exn)
    (Hfail :
       create (request_sent s chat_id user_text) = Raise e
       ∨ (create (request_sent s chat_id user_text) = Return (Response [])
          ∧ e = IndexError)
       ∨ (∃ more, create (request_sent s chat_id user_text)
                  = Return (Response (Choice None :: more))
                  ∧ e = AttributeError)) :
  ∃ s' tail more,
    handle_message create chat_id user_text s
    = (Return (), s',
       [SendAction (lit "typing");
        ApiCall (request_sent s chat_id user_text);
        LogException (lit "OpenAI error")]
       ++ map ReplyText ((failure_prefix ++ tail) :: more))
    ∧ last (get_history s' chat_id)
      = Some (Message assistant_role (failure_prefix ++ exn_str e)).
Proof.
  assert (extracted (create (request_sent s chat_id user_text)) = Raise e) as He.
  { destruct Hfail as [-> | [[-> ->] | (more & -> & ->)]]; done. }
  destruct (first_chunk_of_failure (exn_str e)) as (tail & more & Hchunks).
  eexists _, tail, more. split.
  - rewrite handle_message_eq, He. cbn [recovered logged app].
    by rewrite Hchunks.
  - rewrite get_history_appended. apply last_slice_last_12.
Qed.

Lemma failure_reply_shape_witness :
  ∃ s' tail more,
    handle_message (λ _, Return (Response [])) 42 (lit "hello") initial_store
    = (Return (), s',
       [SendAction (lit "typing");
        ApiCall (request_sent initial_store 42 (lit "hello"));
        LogException (lit "OpenAI error")]
       ++ map ReplyText ((failure_prefix ++ tail) :: more))
    ∧ last (get_history s' 42)
      = Some (Message assistant_role
                (failure_prefix ++ lit "list index out of range")).
Proof.
  exact (failure_reply_shape (λ _, Return (Response [])) initial_store 42
           (lit "hello") IndexError (or_intror (or_introl (conj eq_refl eq_refl)))).
Defined.

(** ** Commands, one after another *)

(** X10.  [/setprompt] followed by [/clearprompt] leaves the store that
    [/clearprompt] alone leaves; a second [/setprompt] with arguments
    replaces the first; [/clearprompt] twice and [/clear] twice leave what
    once leaves. *)
Theorem commands_compose (s : store) (chat_id : Z) (args args' : list str) :
  store_after (setprompt chat_id args ;; clearprompt chat_id) s
  = store_after (clearprompt chat_id) s
  ∧ (args' ≠ [] →
     store_after (setprompt chat_id args ;; setprompt chat_id args') s
     = store_after (setprompt chat_id args') s)
  ∧ store_after (clearprompt chat_id ;; clearprompt chat_id) s
    = store_after (clearprompt chat_id) s
  ∧ store_after (clear_history chat_id ;; clear_history chat_id) s
    = store_after (clear_history chat_id) s.
Proof.
  unfold store_after, bind. split; [|split; [|split]].
  - rewrite setprompt_eq. destruct args as [|a args].
    + by destruct (clearprompt chat_id s) as [[o s1] t1].
    + rewrite !clearprompt_eq. cbn. by rewrite delete_insert_eq.
  - intros Hargs. rewrite !setprompt_eq.
    destruct args' as [|b args']; [done|].
    destruct args as [|a args]; [done|]. cbn. by rewrite insert_insert_eq.
  - rewrite !clearprompt_eq. cbn. by rewrite delete_delete_eq.
  - rewrite !clear_history_eq. cbn. by rewrite delete_delete_eq.
Qed.

Lemma commands_compose_witness :
  store_after (setprompt 1 [lit "terse"] ;; setprompt 1 [lit "be"; lit "kind"])
    initial_store
  = Store ∅ {[ 1 := lit "be kind" ]}.
Proof.
  exact (proj1 (proj2 (commands_compose initial_store 1 [lit "terse"]
                         [lit "be"; lit "kind"])) ltac:(discriminate)).
Defined.

(** X11.  After [/setprompt] with arguments, [build_messages] for that
    chat starts with a system message holding the arguments joined by
    single spaces, whatever prompt was stored before; the history and the
    new user message follow. *)
Theorem setprompt_then_build (s : store) (chat_id : Z) (args : list str)
    (user_text : str) (Hargs : args ≠ []) :
  build_messages chat_id user_text (store_after (setprompt chat_id args) s)
  = (Return ([Message system_role (join (lit " ") args)]
             ++ get_history s chat_id
             ++ [Message user_role user_text]),
     store_after (setprompt chat_id args) s, []).
Proof.
  rewrite build_messages_eq. unfold store_after. rewrite setprompt_eq.
  destruct args as [|a args]; [done|].
  unfold system_entry. cbn [fst snd system_prompts].
  by rewrite lookup_insert_eq.
Qed.

Lemma setprompt_then_build_witness :
  build_messages 2 (lit "hi")
    (store_after (setprompt 2 [lit "be"; lit "brief"]) two_chats)
  = (Return [Message system_role (lit "be brief");
             Message user_role (lit "earlier");
             Message user_role (lit "hi")],
     store_after (setprompt 2 [lit "be"; lit "brief"]) two_chats, []).
Proof.
  exact (setprompt_then_build two_chats 2 [lit "be"; lit "brief"] (lit "hi")
           ltac:(discriminate)).
Defined.

(** X12.  After [/clear] the next message of that chat starts afresh: its
    request carries the system message, if a prompt is stored, and the new
    user message twice, with no earlier turn, and the history afterwards
    is that user turn and the reply. *)
Theorem clear_then_message (create : request → outcome response)
    (s : store) (chat_id : Z) (user_text : str) :
  ∃ s' reply rest,
    handle_message create chat_id user_text
      (store_after (clear_history chat_id) s)
    = (Return (), s',
       SendAction (lit "typing")
       :: ApiCall (Request (lit "gpt-3.5-turbo")
                     (system_entry s chat_id
                      ++ [Message user_role user_text;
                          Message user_role user_text]) 800)
       :: rest)
    ∧ get_history s' chat_id
      = [Message user_role user_text; Message assistant_role reply].
Proof.
  assert (get_history (store_after (clear_history chat_id) s) chat_id = []) as Hh.
  { unfold store_after, get_history. rewrite clear_history_eq. cbn.
    by rewrite lookup_delete_eq. }
  eexists _, _, _. split.
  - rewrite handle_message_eq. unfold request_sent.
    rewrite get_history_appended, Hh. reflexivity.
  - rewrite !get_history_appended, Hh. reflexivity.
Qed.

(** X13.  Clearing what is not there changes nothing: [/clearprompt] for
    a chat without a prompt and [/clear] for a chat without a history
    return normally and leave the whole store exactly as it was. *)
Theorem clear_absent (s : store) (chat_id : Z) :
  (system_prompts s !! chat_id = None →
   clearprompt chat_id s
   = (Return (), s, [ReplyText (lit "System prompt removed (if any).")]))
  ∧ (chat_histories s !! chat_id = None →
     clear_history chat_id s
     = (Return (), s, [ReplyText (lit "Conversation history cleared.")])).
Proof.
  split; intros Hnone.
  - rewrite clearprompt_eq, delete_id by done. by destruct s.
  - rewrite clear_history_eq, delete_id by done. by destruct s.
Qed.

Lemma clear_absent_witness :
  clearprompt 42 full_chat
  = (Return (), full_chat, [ReplyText (lit "System prompt removed (if any).")])
  ∧ clear_history 7 full_chat
    = (Return (), full_chat, [ReplyText (lit "Conversation history cleared.")]).
Proof.
  split.
  - exact (proj1 (clear_absent full_chat 42) eq_refl).
  - exact (proj2 (clear_absent full_chat 7) eq_refl).
Defined.

(** X14.  With six whole exchanges stored, the user turn of the oldest one
    is dropped before the request is built while its reply is kept: the
    history part of the request starts with that assistant turn, followed
    by the five later exchanges and the new user message twice. *)
Theorem full_history_request (create : request → outcome response)
    (s : store) (chat_id : Z) (user_text q a : str) (ps : list (str * str))
    (Hfull : get_history s chat_id = turns_of ((q, a) :: ps))
    (Hlen : length ps = 5%nat) :
  ∃ s' rest,
    handle_message create chat_id user_text s
    = (Return (), s',
       SendAction (lit "typing")
       :: ApiCall (Request (lit "gpt-3.5-turbo")
                     (system_entry s chat_id
                      ++ Message assistant_role a :: turns_of ps
                      ++ [Message user_role user_text;
                          Message user_role user_text]) 800)
       :: rest).
Proof.
  eexists _, _. rewrite handle_message_eq. unfold request_sent.
  rewrite get_history_appended, Hfull, slice_last_12_full.
  - cbn [turns_of flat_map app tail fst snd]. rewrite <- !app_assoc. reflexivity.
  - rewrite length_turns_of. cbn [length]. lia.
Qed.

Lemma full_history_request_witness :
  ∃ s' rest,
    handle_message (λ _, Raise connection_error) 42 (lit "again") full_chat
    = (Return (), s',
       SendAction (lit "typing")
       :: ApiCall (Request (lit "gpt-3.5-turbo")
                     (Message assistant_role (lit "a1")
                      :: turns_of (tail six_exchanges)
                      ++ [Message user_role (lit "again");
                          Message user_role (lit "again")]) 800)
       :: rest).
Proof.
  exact (full_history_request (λ _, Raise connection_error) full_chat 42
           (lit "again") (lit "q1") (lit "a1") (tail six_exchanges)
           eq_refl eq_refl).
Defined.
